(** * Unit circle explorer: angle classification and trigonometric panel

    Verification of the mathematical helpers of [app.py]
    ([get_quadrant], [get_reference_angle]) and of the property panel that
    derives sine, cosine and tangent from the selected angle.

    Numbers.  A Python number reaching the helpers is an [int] (the slider
    yields ints) or a [float].  Ints and finite floats are rationals, Python
    compares them by value ([90 == 90.0]), and the only arithmetic the
    helpers do ([180 - angle], [angle - 180], [360 - angle]) is guarded by
    ranges on which the two operands are within a factor two of each other,
    where float subtraction is exact.  Angles are therefore modelled as [Q],
    Python's [==] as [Qeq] and its [<] as [Qlt].  (An infinity or a NaN fails
    every test of the helpers, as a rational outside the domain does.)  A
    function that reaches the end of its body returns Python's implicit
    [None]: results are [option]s. *)

From Stdlib Require Import QArith Lqa Lia String List Bool.
From Stdlib Require Import Qabs Qminmax Qround DecimalString.
Import ListNotations.

Local Open Scope Q_scope.

(** ** Python comparisons on numbers *)

Module Py.

(** [x == y] on numbers. *)
Definition eqb (x y : Q) : bool := Qeq_bool x y.

(** [x < y] on numbers. *)
Definition ltb (x y : Q) : bool := negb (Qle_bool y x).

(** [x in xs] for a list literal of numbers: some element is [==] to [x]. *)
Definition member (x : Q) (xs : list Q) : bool := existsb (eqb x) xs.

(** The chained comparison [lo < x < hi]. *)
Definition between (lo x hi : Q) : bool := ltb lo x && ltb x hi.

End Py.

(** ** Mathematical helper functions *)

(** [get_quadrant(angle)]: four axis tests, each returning at once, then an
    [if]/[elif] chain over the open intervals; no [else]. *)
Definition get_quadrant (angle : Q) : option string :=
  if Py.member angle [0; 360] then Some "Positive X-axis"%string
  else if Py.eqb angle 90 then Some "Positive Y-axis"%string
  else if Py.eqb angle 180 then Some "Negative X-axis"%string
  else if Py.eqb angle 270 then Some "Negative Y-axis"%string
  else if Py.between 0 angle 90 then Some "Quadrant I"%string
  else if Py.between 90 angle 180 then Some "Quadrant II"%string
  else if Py.between 180 angle 270 then Some "Quadrant III"%string
  else if Py.between 270 angle 360 then Some "Quadrant IV"%string
  else None.

(** [get_reference_angle(angle)]: [None] on the axes, then the same chain of
    open intervals; no [else]. *)
Definition get_reference_angle (angle : Q) : option Q :=
  if Py.member angle [0; 90; 180; 270; 360] then None
  else if Py.between 0 angle 90 then Some angle
  else if Py.between 90 angle 180 then Some (180 - angle)
  else if Py.between 180 angle 270 then Some (angle - 180)
  else if Py.between 270 angle 360 then Some (360 - angle)
  else None.

(** The two blocks of [get_quadrant] taken apart: the axis tests of lines
    10-17 and the interval chain of lines 19-26. *)
Definition axis_checks (angle : Q) : option string :=
  if Py.member angle [0; 360] then Some "Positive X-axis"%string
  else if Py.eqb angle 90 then Some "Positive Y-axis"%string
  else if Py.eqb angle 180 then Some "Negative X-axis"%string
  else if Py.eqb angle 270 then Some "Negative Y-axis"%string
  else None.

Definition interval_checks (angle : Q) : option string :=
  if Py.between 0 angle 90 then Some "Quadrant I"%string
  else if Py.between 90 angle 180 then Some "Quadrant II"%string
  else if Py.between 180 angle 270 then Some "Quadrant III"%string
  else if Py.between 270 angle 360 then Some "Quadrant IV"%string
  else None.

(** ** The specification's vocabulary *)

(** The contract domain of an angle, the closed interval [[0, 360]]. *)
Definition in_domain (a : Q) : Prop := 0 <= a /\ a <= 360.

(** The five axis angles. *)
Definition on_axis (a : Q) : Prop :=
  a == 0 \/ a == 90 \/ a == 180 \/ a == 270 \/ a == 360.

(** The enumerated labels of the data model. *)
Inductive QuadrantLabel : Set :=
| PositiveXAxis | PositiveYAxis | NegativeXAxis | NegativeYAxis
| QuadrantI | QuadrantII | QuadrantIII | QuadrantIV.

(** The text by which the program reports each label. *)
Definition label_text (l : QuadrantLabel) : string :=
  match l with
  | PositiveXAxis => "Positive X-axis"
  | PositiveYAxis => "Positive Y-axis"
  | NegativeXAxis => "Negative X-axis"
  | NegativeYAxis => "Negative Y-axis"
  | QuadrantI => "Quadrant I"
  | QuadrantII => "Quadrant II"
  | QuadrantIII => "Quadrant III"
  | QuadrantIV => "Quadrant IV"
  end.

Definition is_axis_label (l : QuadrantLabel) : bool :=
  match l with
  | PositiveXAxis | PositiveYAxis | NegativeXAxis | NegativeYAxis => true
  | _ => false
  end.

(** The boundary policy of the specification, clause by clause. *)
Inductive boundary_policy (a : Q) : QuadrantLabel -> Prop :=
| policy_0 : a == 0 -> boundary_policy a PositiveXAxis
| policy_360 : a == 360 -> boundary_policy a PositiveXAxis
| policy_90 : a == 90 -> boundary_policy a PositiveYAxis
| policy_180 : a == 180 -> boundary_policy a NegativeXAxis
| policy_270 : a == 270 -> boundary_policy a NegativeYAxis
| policy_I : 0 < a -> a < 90 -> boundary_policy a QuadrantI
| policy_II : 90 < a -> a < 180 -> boundary_policy a QuadrantII
| policy_III : 180 < a -> a < 270 -> boundary_policy a QuadrantIII
| policy_IV : 270 < a -> a < 360 -> boundary_policy a QuadrantIV.

(** Python's [==] on the results of [get_reference_angle]: [None] equals
    only [None], numbers are compared by value. *)
Definition same_result (r r' : option Q) : Prop :=
  match r, r' with
  | None, None => True
  | Some x, Some y => x == y
  | _, _ => False
  end.

(** ** Where an angle lies *)

(** The eleven places an angle can be, relative to the thresholds the
    helpers compare it with. *)
Inductive position (a : Q) : Set :=
| below : a < 0 -> position a
| at_0 : a == 0 -> position a
| in_I : 0 < a -> a < 90 -> position a
| at_90 : a == 90 -> position a
| in_II : 90 < a -> a < 180 -> position a
| at_180 : a == 180 -> position a
| in_III : 180 < a -> a < 270 -> position a
| at_270 : a == 270 -> position a
| in_IV : 270 < a -> a < 360 -> position a
| at_360 : a == 360 -> position a
| above : 360 < a -> position a.

Definition locate (a : Q) : position a.
Proof.
  destruct (Q_dec a 0) as [[H|H]|H]; [exact (below a H)| |exact (at_0 a H)].
  destruct (Q_dec a 90) as [[H1|H1]|H1];
    [exact (in_I a H H1)| |exact (at_90 a H1)].
  destruct (Q_dec a 180) as [[H2|H2]|H2];
    [exact (in_II a H1 H2)| |exact (at_180 a H2)].
  destruct (Q_dec a 270) as [[H3|H3]|H3];
    [exact (in_III a H2 H3)| |exact (at_270 a H3)].
  destruct (Q_dec a 360) as [[H4|H4]|H4];
    [exact (in_IV a H3 H4)|exact (above a H4)|exact (at_360 a H4)].
Defined.

(** ** The trigonometric panel *)

(** The functions of Python's [math] module the panel calls, over the
    platform's floating-point numbers.  They belong to the C library, not to
    this program, and are taken as given.  The one law: [math.radians]
    converts its argument by value, so [90], [90.0] and any other way of
    writing the same number give the same float. *)
Record Libm : Type := {
  float : Type;
  radians : Q -> float;
  cos : float -> float;
  sin : float -> float;
  tan : float -> float;
  (** [x == 0] for a float [x]; the panel tests [cos_val != 0]. *)
  is_zero : float -> bool;
  radians_by_value : forall a b : Q, a == b -> radians a = radians b
}.

(** The three values shown for an angle.  [tan_val] holds a float or the
    string ["Undefined"]. *)
Record TrigValues (F : Type) : Type := {
  sine : F;
  cosine : F;
  tangent : F + string
}.
Arguments sine {F}.
Arguments cosine {F}.
Arguments tangent {F}.

(** The undefined sentinel. *)
Definition Undefined {F : Type} : F + string := inr "Undefined"%string.

(** Lines 160-164 of the panel: [rad], [cos_val], [sin_val], [tan_val]. *)
Definition evaluate (m : Libm) (angle : Q) : TrigValues (float m) :=
  let rad := radians m angle in
  let cos_val := cos m rad in
  let sin_val := sin m rad in
  let tan_val :=
    if negb (is_zero m cos_val) then inl (tan m rad)
    else inr "Undefined"%string in
  {| sine := sin_val; cosine := cos_val; tangent := tan_val |}.

(** A stand-in C library over the rationals, to run [evaluate] on: pi is
    replaced by 355/113 and each function by the first terms of its series.
    As with floats, the stand-in for pi/2 is not a zero of the cosine. *)
Definition rational_radians (a : Q) : Q := Qred (a * ((355 # 113) / 180)).

Definition rational_cos (x : Q) : Q := Qred (1 - x * x / 2 + x * x * x * x / 24).

Definition rational_sin (x : Q) : Q := Qred (x - x * x * x / 6).

Definition rational_tan (x : Q) : Q := Qred (x + x * x * x / 3).

Definition rational_libm : Libm.
Proof.
  refine {| float := Q;
            radians := rational_radians;
            cos := rational_cos;
            sin := rational_sin;
            tan := rational_tan;
            is_zero := fun x => Qeq_bool x 0 |}.
  intros a b H. unfold rational_radians.
  apply Qred_complete. rewrite H. reflexivity.
Defined.

(** ** The figure *)

(** Strings hold the UTF-8 bytes of the program's text.  [str n] is Python's
    rendering of the int [n] in an f-string, its decimal digits. *)
Definition str (n : Z) : string := NilZero.string_of_int (Z.to_int n).

(** What the program asks of floats beyond [math]: the float of a number
    written in the program, the product of two floats, and the rendering of
    a float with three decimals (the f-string format [:.3f]). *)
Record FloatOps (m : Libm) : Type := {
  of_number : Q -> float m;
  fmul : float m -> float m -> float m;
  format_3f : float m -> string
}.
Arguments of_number {m}.
Arguments fmul {m}.
Arguments format_3f {m}.

(** [numpy.linspace(start, stop, num)] with its default [endpoint=True]:
    [num] samples, the last of which is set to [stop] itself when there are
    at least two. *)
Record Numpy (m : Libm) : Type := {
  linspace : Q -> float m -> nat -> list (float m);
  linspace_length :
    forall start stop num, length (linspace start stop num) = num;
  linspace_last :
    forall start stop num d,
      (2 <= num)%nat -> last (linspace start stop num) d = stop
}.
Arguments linspace {m}.

(** The part of a Plotly figure the program builds: the layout it sets, and
    the shapes, traces and annotations in the order it adds them. *)
Module Plotly.

Record Marker : Type := {
  color : string;
  size : Z;
  symbol : option string
}.

Record Line : Type := {
  line_color : string;
  line_width : Z;
  dash : option string
}.

Record Scatter (F : Type) : Type := {
  x : list F;
  y : list F;
  mode : string;
  marker : option Marker;
  line : option Line;
  customdata : option (list Z);
  hovertemplate : option string;
  name : option string
}.
Arguments x {F}.
Arguments y {F}.
Arguments mode {F}.
Arguments marker {F}.
Arguments line {F}.
Arguments customdata {F}.
Arguments hovertemplate {F}.
Arguments name {F}.

Inductive Shape (F : Type) : Type :=
| shape_path (path fillcolor : string) (width : Z)
| shape_circle (x0 y0 x1 y1 : Z) (ln : Line)
| shape_line (x0 y0 : Z) (x1 y1 : F) (ln : Line).
Arguments shape_path {F}.
Arguments shape_circle {F}.
Arguments shape_line {F}.

Record Annotation (F : Type) : Type := {
  ax : F;
  ay : F;
  text : string;
  showarrow : bool;
  font_size : Z
}.
Arguments ax {F}.
Arguments ay {F}.
Arguments text {F}.
Arguments showarrow {F}.
Arguments font_size {F}.

Record Axis : Type := {
  range : Q * Q;
  scaleanchor : option string;
  scaleratio : option Z;
  title : string
}.

Record Margin : Type := { l : Z; r : Z; t : Z; b : Z }.

Record Layout : Type := {
  width : Z;
  height : Z;
  showlegend : bool;
  xaxis : Axis;
  yaxis : Axis;
  plot_bgcolor : string;
  margin : Margin
}.

Record Figure (F : Type) : Type := {
  layout : option Layout;
  shapes : list (Shape F);
  data : list (Scatter F);
  annotations : list (Annotation F)
}.
Arguments layout {F}.
Arguments shapes {F}.
Arguments data {F}.
Arguments annotations {F}.

(** [go.Figure()] *)
Definition new (F : Type) : Figure F :=
  {| layout := None; shapes := []; data := []; annotations := [] |}.

Definition update_layout {F} (fig : Figure F) (ly : Layout) : Figure F :=
  {| layout := Some ly; shapes := shapes fig; data := data fig;
     annotations := annotations fig |}.

Definition add_shape {F} (fig : Figure F) (s : Shape F) : Figure F :=
  {| layout := layout fig; shapes := shapes fig ++ [s]; data := data fig;
     annotations := annotations fig |}.

Definition add_trace {F} (fig : Figure F) (tr : Scatter F) : Figure F :=
  {| layout := layout fig; shapes := shapes fig; data := data fig ++ [tr];
     annotations := annotations fig |}.

Definition add_annotation {F} (fig : Figure F) (an : Annotation F) : Figure F :=
  {| layout := layout fig; shapes := shapes fig; data := data fig;
     annotations := annotations fig ++ [an] |}.

End Plotly.

(** [d[key]] on a dict literal; [None] stands for the [KeyError]. *)
Definition getitem (d : list (string * string)) (key : string) : option string :=
  match find (fun kv => String.eqb (fst kv) key) d with
  | Some kv => Some (snd kv)
  | None => None
  end.

Definition quadrant_colors : list (string * string) :=
  [ ("I", "rgba(173, 216, 230, 0.3)");
    ("II", "rgba(144, 238, 144, 0.3)");
    ("III", "rgba(255, 255, 224, 0.4)");
    ("IV", "rgba(255, 182, 193, 0.3)") ]%string.

Definition key_angles : list Z :=
  [0; 30; 45; 60; 90; 120; 135; 150; 180; 210; 225; 240; 270; 300; 315; 330]%Z.

(** The body of the loop over [key_angles]: a blue marker on the circle and
    a label a little outside it. *)
Definition add_key_angle (m : Libm) (ops : FloatOps m)
    (fig : Plotly.Figure (float m)) (angle : Z) : Plotly.Figure (float m) :=
  let rad := radians m (inject_Z angle) in
  let x := cos m rad in
  let y := sin m rad in
  let fig :=
    Plotly.add_trace fig
      {| Plotly.x := [x]; Plotly.y := [y];
         Plotly.mode := "markers";
         Plotly.marker :=
           Some {| Plotly.color := "blue"; Plotly.size := 8;
                   Plotly.symbol := None |};
         Plotly.line := None;
         Plotly.customdata := Some [angle];
         Plotly.hovertemplate := Some (str angle ++ "°<extra></extra>")%string;
         Plotly.name := None |} in
  Plotly.add_annotation fig
    {| Plotly.ax := fmul ops x (of_number ops (115 # 100));
       Plotly.ay := fmul ops y (of_number ops (115 # 100));
       Plotly.text := (str angle ++ "°")%string;
       Plotly.showarrow := false;
       Plotly.font_size := 10 |}.

(** The elements drawn for the selected angle: the red cross, the dashed
    radius, and the arc swept from 0. *)
Definition add_selected_angle (m : Libm) (np : Numpy m)
    (fig : Plotly.Figure (float m)) (selected_angle : Q)
    : Plotly.Figure (float m) :=
  let rad_selected := radians m selected_angle in
  let x_selected := cos m rad_selected in
  let y_selected := sin m rad_selected in
  let fig :=
    Plotly.add_trace fig
      {| Plotly.x := [x_selected]; Plotly.y := [y_selected];
         Plotly.mode := "markers";
         Plotly.marker :=
           Some {| Plotly.color := "red"; Plotly.size := 12;
                   Plotly.symbol := Some "x"%string |};
         Plotly.line := None;
         Plotly.customdata := None;
         Plotly.hovertemplate := None;
         Plotly.name := Some "Selected Angle"%string |} in
  let fig :=
    Plotly.add_shape fig
      (Plotly.shape_line 0 0 x_selected y_selected
         {| Plotly.line_color := "red"; Plotly.line_width := 2;
            Plotly.dash := Some "dash"%string |}) in
  let x_arc := map (cos m) (linspace np 0 rad_selected 50) in
  let y_arc := map (sin m) (linspace np 0 rad_selected 50) in
  Plotly.add_trace fig
    {| Plotly.x := x_arc; Plotly.y := y_arc;
       Plotly.mode := "lines";
       Plotly.marker := None;
       Plotly.line :=
         Some {| Plotly.line_color := "red"; Plotly.line_width := 2;
                 Plotly.dash := None |};
       Plotly.customdata := None;
       Plotly.hovertemplate := None;
       Plotly.name := None |}.

(** [create_unit_circle_figure(selected_angle)].  The four lookups in
    [quadrant_colors] come first; a missing key would raise before anything
    is returned. *)
Definition create_unit_circle_figure (m : Libm) (ops : FloatOps m)
    (np : Numpy m) (selected_angle : option Q)
    : option (Plotly.Figure (float m)) :=
  let fig := Plotly.new (float m) in
  let fig :=
    Plotly.update_layout fig
      {| Plotly.width := 600;
         Plotly.height := 600;
         Plotly.showlegend := false;
         Plotly.xaxis :=
           {| Plotly.range := (- (15 # 10), 15 # 10);
              Plotly.scaleanchor := Some "y"%string;
              Plotly.scaleratio := Some 1%Z;
              Plotly.title := "cos(θ)" |};
         Plotly.yaxis :=
           {| Plotly.range := (- (15 # 10), 15 # 10);
              Plotly.scaleanchor := None;
              Plotly.scaleratio := None;
              Plotly.title := "sin(θ)" |};
         Plotly.plot_bgcolor := "white";
         Plotly.margin :=
           {| Plotly.l := 20; Plotly.r := 20; Plotly.t := 40; Plotly.b := 20 |}
      |} in
  match getitem quadrant_colors "I", getitem quadrant_colors "II",
        getitem quadrant_colors "III", getitem quadrant_colors "IV" with
  | Some color_I, Some color_II, Some color_III, Some color_IV =>
      let fig :=
        Plotly.add_shape fig
          (Plotly.shape_path "M 0,0 L 1,0 A 1,1 0 0,1 0,1 Z" color_I 0) in
      let fig :=
        Plotly.add_shape fig
          (Plotly.shape_path "M 0,0 L 0,1 A 1,1 0 0,1 -1,0 Z" color_II 0) in
      let fig :=
        Plotly.add_shape fig
          (Plotly.shape_path "M 0,0 L -1,0 A 1,1 0 0,1 0,-1 Z" color_III 0) in
      let fig :=
        Plotly.add_shape fig
          (Plotly.shape_path "M 0,0 L 0,-1 A 1,1 0 0,1 1,0 Z" color_IV 0) in
      let fig :=
        Plotly.add_shape fig
          (Plotly.shape_circle (-1) (-1) 1 1
             {| Plotly.line_color := "black"; Plotly.line_width := 2;
                Plotly.dash := None |}) in
      let fig := fold_left (add_key_angle m ops) key_angles fig in
      Some match selected_angle with
           | Some angle => add_selected_angle m np fig angle
           | None => fig
           end
  | _, _, _, _ => None
  end.

(** ** The page *)

(** The elements the panel writes to the page, in order. *)
Inductive Element : Type :=
| header (body : string)
| subheader (body : string)
| metric (label : string) (value : option string)
| info (body : string)
| markdown (body : string).

(** The Python int that a whole-number result of the helpers stands for. *)
Definition int_of (q : Q) : Z := Qfloor q.

(** Lines 154-183, the panel.  [angle] is what the session holds under the
    key, an int, or Python's [None]. *)
Definition angle_properties (m : Libm) (ops : FloatOps m)
    (angle : option Z) : list Element :=
  header "Angle Properties" ::
  match angle with
  | Some angle =>
      let trig := evaluate m (inject_Z angle) in
      let sin_val := sine trig in
      let cos_val := cosine trig in
      let tan_val := tangent trig in
      let quadrant := get_quadrant (inject_Z angle) in
      let ref_angle := get_reference_angle (inject_Z angle) in
      [ metric "Selected Angle (θ)" (Some (str angle ++ "°")%string);
        metric "Location" quadrant;
        match ref_angle with
        | Some ref_angle =>
            metric "Reference Angle"
              (Some (str (int_of ref_angle) ++ "°")%string)
        | None => info "Angles on the axes do not have a reference angle."
        end;
        subheader "Trigonometric Values";
        markdown ("**sin(" ++ str angle ++ "°) =** `"
                    ++ format_3f ops sin_val ++ "`")%string;
        markdown ("**cos(" ++ str angle ++ "°) =** `"
                    ++ format_3f ops cos_val ++ "`")%string;
        markdown ("**tan(" ++ str angle ++ "°) =** `"
                    ++ match tan_val with
                       | inr _ => "Undefined"
                       | inl t => format_3f ops t
                       end ++ "`")%string ]
  | None => [ info "Select an angle to see its properties." ]
  end.

(** ** A stand-in for floats and numpy over the rationals *)

Definition rational_ops : FloatOps rational_libm :=
  {| of_number := (Qred : Q -> float rational_libm);
     fmul := (fun a b => Qred (a * b)) : float rational_libm -> _ -> _;
     format_3f :=
       (fun a =>
          let n := Qfloor (Qabs a * 1000 + (1 # 2)) in
          ((if Qle_bool 0 a then "" else "-")
             ++ str (n / 1000) ++ "."
             ++ substring 1 3 (str (1000 + n mod 1000)))%string)
       : float rational_libm -> string |}.

Definition rational_linspace (start stop : Q) (num : nat) : list Q :=
  match num with
  | O => []
  | S O => [start]
  | S (S k) =>
      map (fun i => start
                    + inject_Z (Z.of_nat i)
                      * ((stop - start) / inject_Z (Z.of_nat (S k))))
          (seq 0 (S k)) ++ [stop]
  end.

Definition rational_numpy : Numpy rational_libm.
Proof.
  refine {| linspace := (rational_linspace : Q -> float rational_libm -> _) |}.
  - intros start stop [|[|k]]; cbn [rational_linspace length];
      try reflexivity.
    rewrite length_app, length_map, length_seq. cbn [length]. lia.
  - intros start stop [|[|k]] d Hnum; try lia.
    cbn [rational_linspace]. apply last_last.
Defined.

(** ** Geometry of the labels *)

(** The label a quarter turn further round the circle. *)
Definition quarter_turn (l : QuadrantLabel) : QuadrantLabel :=
  match l with
  | PositiveXAxis => PositiveYAxis
  | PositiveYAxis => NegativeXAxis
  | NegativeXAxis => NegativeYAxis
  | NegativeYAxis => PositiveXAxis
  | QuadrantI => QuadrantII
  | QuadrantII => QuadrantIII
  | QuadrantIII => QuadrantIV
  | QuadrantIV => QuadrantI
  end.

(** The label of the mirror image in the x-axis. *)
Definition mirror_x (l : QuadrantLabel) : QuadrantLabel :=
  match l with
  | PositiveXAxis => PositiveXAxis
  | PositiveYAxis => NegativeYAxis
  | NegativeXAxis => NegativeXAxis
  | NegativeYAxis => PositiveYAxis
  | QuadrantI => QuadrantIV
  | QuadrantII => QuadrantIII
  | QuadrantIII => QuadrantII
  | QuadrantIV => QuadrantI
  end.

(** The angle that a label and a reference angle stand for: the axis angle
    of an axis label, the angle of the quadrant that lies [r] away from the
    x-axis for a quadrant label.  A label and a reference angle of the wrong
    kind stand for nothing. *)
Definition angle_of (l : QuadrantLabel) (reference : option Q) : option Q :=
  match l, reference with
  | PositiveXAxis, None => Some 0
  | PositiveYAxis, None => Some 90
  | NegativeXAxis, None => Some 180
  | NegativeYAxis, None => Some 270
  | QuadrantI, Some r => Some r
  | QuadrantII, Some r => Some (180 - r)
  | QuadrantIII, Some r => Some (180 + r)
  | QuadrantIV, Some r => Some (360 - r)
  | _, _ => None
  end.

(** The distance in degrees from an angle of the domain to the x-axis, that
    is to the nearest of 0, 180 and 360. *)
Definition to_x_axis (a : Q) : Q := Qmin a (Qmin (Qabs (a - 180)) (360 - a)).

(** ** Sample runs *)

Example get_quadrant_45 : get_quadrant 45 = Some (label_text QuadrantI).
Proof. reflexivity. Qed.

Example get_quadrant_fraction : get_quadrant (181 # 2) = Some "Quadrant II"%string.
Proof. reflexivity. Qed.

Example get_reference_angle_300 : get_reference_angle 300 = Some 60.
Proof. reflexivity. Qed.

Example get_reference_angle_axis : get_reference_angle (180 # 2) = None.
Proof. reflexivity. Qed.

Example evaluate_rational_90 :
  tangent (evaluate rational_libm 90) <> Undefined.
Proof. vm_compute. discriminate. Qed.

(** ** Python comparisons decide the order of the rationals *)

Lemma eqb_spec (x y : Q) : Py.eqb x y = true <-> x == y.
Proof. unfold Py.eqb. apply Qeq_bool_iff. Qed.

Lemma ltb_spec (x y : Q) : Py.ltb x y = true <-> x < y.
Proof.
  unfold Py.ltb. rewrite negb_true_iff.
  split; intro H.
  - apply Qnot_le_lt. intro Hle. apply Qle_bool_iff in Hle. congruence.
  - destruct (Qle_bool y x) eqn:E; [|reflexivity].
    apply Qle_bool_iff in E. exfalso. apply (Qlt_not_le _ _ H E).
Qed.

Lemma eqb_false (x y : Q) : Py.eqb x y = false -> ~ x == y.
Proof. intros E H. apply eqb_spec in H. congruence. Qed.

Lemma ltb_false (x y : Q) : Py.ltb x y = false -> y <= x.
Proof.
  intro E. apply Qnot_lt_le. intro H. apply ltb_spec in H. congruence.
Qed.

Ltac reflect_test E :=
  first
    [ apply eqb_spec in E
    | apply ltb_spec in E
    | apply eqb_false in E
    | apply ltb_false in E ].

(** Runs the tests of a helper one after the other; a branch the position of
    the angle excludes is closed by linear arithmetic. *)
Ltac run_tests :=
  repeat match goal with
  | |- context [Py.eqb ?x ?y] =>
      let E := fresh "E" in
      destruct (Py.eqb x y) eqn:E; reflect_test E; try (exfalso; lra)
  | |- context [Py.ltb ?x ?y] =>
      let E := fresh "E" in
      destruct (Py.ltb x y) eqn:E; reflect_test E; try (exfalso; lra)
  end; cbn [orb andb].

Ltac unfold_helper :=
  unfold get_quadrant, get_reference_angle, axis_checks, interval_checks,
    Py.member, Py.between, existsb.

(** The result of each helper at each position. *)
Lemma get_quadrant_at (a : Q) :
  get_quadrant a =
  match locate a with
  | below _ _ | above _ _ => None
  | at_0 _ _ | at_360 _ _ => Some (label_text PositiveXAxis)
  | at_90 _ _ => Some (label_text PositiveYAxis)
  | at_180 _ _ => Some (label_text NegativeXAxis)
  | at_270 _ _ => Some (label_text NegativeYAxis)
  | in_I _ _ _ => Some (label_text QuadrantI)
  | in_II _ _ _ => Some (label_text QuadrantII)
  | in_III _ _ _ => Some (label_text QuadrantIII)
  | in_IV _ _ _ => Some (label_text QuadrantIV)
  end.
Proof.
  destruct (locate a); unfold_helper; run_tests; reflexivity.
Qed.

Lemma get_reference_angle_at (a : Q) :
  get_reference_angle a =
  match locate a with
  | in_I _ _ _ => Some a
  | in_II _ _ _ => Some (180 - a)
  | in_III _ _ _ => Some (a - 180)
  | in_IV _ _ _ => Some (360 - a)
  | _ => None
  end.
Proof.
  destruct (locate a); unfold_helper; run_tests; reflexivity.
Qed.

Lemma label_text_inj (l l' : QuadrantLabel) :
  label_text l = label_text l' -> l = l'.
Proof. destruct l, l'; intro H; (reflexivity || discriminate H). Qed.

(** Every result of [get_quadrant] is the text of a label. *)
Lemma get_quadrant_label (a : Q) (s : string) :
  get_quadrant a = Some s -> exists l, s = label_text l.
Proof.
  rewrite get_quadrant_at.
  destruct (locate a); cbv beta iota; intro H;
    first
      [ discriminate H
      | match type of H with
        | Some (label_text ?l) = _ => exists l; injection H as <-; reflexivity
        end ].
Qed.

Lemma Some_label_inj (l l' : QuadrantLabel) :
  Some (label_text l) = Some (label_text l') -> l = l'.
Proof. intro H. injection H as H. exact (label_text_inj l l' H). Qed.

(** Closes a goal about one position of the angle: the facts of the position
    and of the domain are linear, the results are constructors. *)
Ltac settle :=
  unfold in_domain, on_axis in *;
  repeat match goal with
  | H : _ /\ _ |- _ => destruct H
  | H : Some (label_text _) = Some (label_text _) |- _ =>
      apply Some_label_inj in H; subst
  | H : boundary_policy _ _ |- _ => inversion H; clear H
  end;
  try discriminate; try lra; try tauto; try reflexivity.

(** ** The tangent of the panel *)

(** C1 (as the program computes it).  The tangent shown is the undefined
    sentinel exactly when the cosine the C library returned compares equal
    to zero, and is the library's tangent otherwise.  The angle itself is
    never compared with 90 or 270: whether the sentinel appears at the two
    poles is left to the floating-point cosine. *)
Theorem tangent_undefined_iff_cosine_zero (m : Libm) (angle : Q) :
  (tangent (evaluate m angle) = Undefined
     <-> is_zero m (cos m (radians m angle)) = true) /\
  (tangent (evaluate m angle) = inl (tan m (radians m angle))
     <-> is_zero m (cos m (radians m angle)) = false).
Proof.
  unfold evaluate, Undefined; cbn [tangent].
  destruct (is_zero m (cos m (radians m angle))); cbn [negb];
    repeat split; intro H; (reflexivity || discriminate H).
Qed.

(** ** The quadrant of an angle *)

(** C2.  On the domain [get_quadrant] is the boundary policy of the
    specification: it returns a label exactly when the policy assigns that
    label to the angle, and 360 is classified as 0 is. *)
Theorem get_quadrant_boundary_policy (a : Q) (Hdom : in_domain a) :
  (forall l, boundary_policy a l <-> get_quadrant a = Some (label_text l)) /\
  get_quadrant 360 = get_quadrant 0 /\
  get_quadrant 0 = Some (label_text PositiveXAxis).
Proof.
  split; [|split; reflexivity].
  intro l. rewrite get_quadrant_at.
  destruct (locate a); cbv beta iota; (split; [intro H; settle | intro H]).
  all: try discriminate H.
  all: apply Some_label_inj in H; subst l.
  all: first [ now apply policy_0 | now apply policy_360 | now apply policy_90
             | now apply policy_180 | now apply policy_270
             | now apply policy_I | now apply policy_II
             | now apply policy_III | now apply policy_IV ].
Qed.

Lemma get_quadrant_boundary_policy_witness :
  in_domain 360 /\
  (boundary_policy 360 PositiveXAxis <->
   get_quadrant 360 = Some (label_text PositiveXAxis)).
Proof.
  assert (Hdom : in_domain 360) by (split; unfold Qle; simpl; lia).
  split; [exact Hdom|].
  exact (proj1 (get_quadrant_boundary_policy 360 Hdom) PositiveXAxis).
Defined.

Lemma label_unique (k : QuadrantLabel) :
  exists! l, Some (label_text k) = Some (label_text l).
Proof.
  exists k. split; [reflexivity|].
  intros l H. exact (Some_label_inj k l H).
Qed.

(** [get_quadrant] is its two blocks in sequence: what the axis tests return
    stands, and the interval chain is consulted only when they return
    nothing. *)
Lemma get_quadrant_blocks (a : Q) :
  get_quadrant a =
  match axis_checks a with
  | Some s => Some s
  | None => interval_checks a
  end.
Proof.
  unfold get_quadrant, axis_checks.
  destruct (Py.member a [0; 360]); [reflexivity|].
  destruct (Py.eqb a 90); [reflexivity|].
  destruct (Py.eqb a 180); [reflexivity|].
  destruct (Py.eqb a 270); reflexivity.
Qed.

(** C3.  On the domain [get_quadrant] always returns, and returns one label
    only; the axis tests are decided before the interval chain; and the
    label is an axis label exactly at 0, 90, 180, 270 and 360. *)
Theorem get_quadrant_total (a : Q) (Hdom : in_domain a) :
  (exists! l, get_quadrant a = Some (label_text l)) /\
  (forall s, axis_checks a = Some s -> get_quadrant a = Some s) /\
  (axis_checks a = None -> get_quadrant a = interval_checks a) /\
  (forall l, get_quadrant a = Some (label_text l) ->
             (is_axis_label l = true <-> on_axis a)).
Proof.
  split; [|split; [|split]].
  - rewrite get_quadrant_at.
    destruct (locate a); cbv beta iota;
      first [ apply label_unique | exfalso; settle ].
  - intros s H. rewrite get_quadrant_blocks, H. reflexivity.
  - intro H. rewrite get_quadrant_blocks, H. reflexivity.
  - intro l. rewrite get_quadrant_at.
    destruct (locate a); cbv beta iota; intro H; try discriminate H;
      apply Some_label_inj in H; subst l; cbn [is_axis_label];
      (split; intro H; settle).
Qed.

Lemma get_quadrant_total_witness :
  in_domain 270 /\
  (exists! l, get_quadrant 270 = Some (label_text l)) /\
  (forall l, get_quadrant 270 = Some (label_text l) ->
             (is_axis_label l = true <-> on_axis 270)).
Proof.
  assert (Hdom : in_domain 270) by (split; unfold Qle; simpl; lia).
  split; [exact Hdom|].
  split.
  - exact (proj1 (get_quadrant_total 270 Hdom)).
  - exact (proj2 (proj2 (proj2 (get_quadrant_total 270 Hdom)))).
Defined.

(** ** The reference angle *)

(** C4.  On the domain [get_reference_angle] returns [None] exactly at the
    five axis angles. *)
Theorem reference_none_iff_axis (a : Q) (Hdom : in_domain a) :
  get_reference_angle a = None <-> on_axis a.
Proof.
  rewrite get_reference_angle_at.
  destruct (locate a); cbv beta iota; (split; intro H; settle).
Qed.

Lemma reference_none_iff_axis_witness :
  in_domain 180 /\ (get_reference_angle 180 = None <-> on_axis 180).
Proof.
  assert (Hdom : in_domain 180) by (split; unfold Qle; simpl; lia).
  split; [exact Hdom | exact (reference_none_iff_axis 180 Hdom)].
Defined.

(** C5.  Off the axes an angle of the domain lies in one of the four open
    intervals, and [get_reference_angle] returns the angle itself on (0,90),
    [180 - angle] on (90,180), [angle - 180] on (180,270) and [360 - angle]
    on (270,360). *)
Theorem reference_interval_formulas (a : Q)
    (Hdom : in_domain a) (Hoff : ~ on_axis a) :
  ((0 < a /\ a < 90) \/ (90 < a /\ a < 180) \/
   (180 < a /\ a < 270) \/ (270 < a /\ a < 360)) /\
  (0 < a /\ a < 90 -> get_reference_angle a = Some a) /\
  (90 < a /\ a < 180 -> get_reference_angle a = Some (180 - a)) /\
  (180 < a /\ a < 270 -> get_reference_angle a = Some (a - 180)) /\
  (270 < a /\ a < 360 -> get_reference_angle a = Some (360 - a)).
Proof.
  rewrite get_reference_angle_at.
  destruct (locate a); cbv beta iota;
    try (exfalso; apply Hoff; unfold on_axis; tauto);
    try (exfalso; unfold in_domain in Hdom; lra);
    (split; [tauto|]); repeat split; intros [H1 H2];
    first [ reflexivity | exfalso; lra ].
Qed.

Lemma reference_interval_formulas_witness :
  in_domain 120 /\ ~ on_axis 120 /\
  get_reference_angle 120 = Some (180 - 120).
Proof.
  assert (Hdom : in_domain 120) by (split; unfold Qle; simpl; lia).
  assert (Hoff : ~ on_axis 120)
    by (intros [H|[H|[H|[H|H]]]]; discriminate H).
  split; [exact Hdom|]. split; [exact Hoff|].
  apply (proj1 (proj2 (proj2 (reference_interval_formulas 120 Hdom Hoff)))).
  split; reflexivity.
Defined.

(** C6.  Off the axes the reference angle of an angle of the domain is a
    number strictly between 0 and 90. *)
Theorem reference_acute (a : Q) (Hdom : in_domain a) (Hoff : ~ on_axis a) :
  exists r, get_reference_angle a = Some r /\ 0 < r /\ r < 90.
Proof.
  rewrite get_reference_angle_at.
  destruct (locate a); cbv beta iota;
    try (exfalso; apply Hoff; unfold on_axis; tauto);
    try (exfalso; unfold in_domain in Hdom; lra);
    (eexists; split; [reflexivity | split; lra]).
Qed.

Lemma reference_acute_witness :
  in_domain 200 /\ ~ on_axis 200 /\
  exists r, get_reference_angle 200 = Some r /\ 0 < r /\ r < 90.
Proof.
  assert (Hdom : in_domain 200) by (split; unfold Qle; simpl; lia).
  assert (Hoff : ~ on_axis 200)
    by (intros [H|[H|[H|[H|H]]]]; discriminate H).
  split; [exact Hdom|]. split; [exact Hoff|].
  exact (reference_acute 200 Hdom Hoff).
Defined.

(** C7.  For an angle strictly between 180 and 360, other than 270, the
    reference angles of [a] and of [360 - a] are both numbers and are equal;
    the reference angles of 300 and of 60 are both 60. *)
Theorem reference_symmetry (a : Q)
    (Hlo : 180 < a) (Hhi : a < 360) (Hpole : ~ a == 270) :
  (exists r r',
     get_reference_angle a = Some r /\
     get_reference_angle (360 - a) = Some r' /\
     r == r') /\
  same_result (get_reference_angle a) (get_reference_angle (360 - a)) /\
  get_reference_angle 300 = Some 60 /\
  get_reference_angle 60 = Some 60.
Proof.
  assert (Hsym : exists r r',
             get_reference_angle a = Some r /\
             get_reference_angle (360 - a) = Some r' /\ r == r').
  { rewrite (get_reference_angle_at a), (get_reference_angle_at (360 - a)).
    destruct (locate a); cbv beta iota; try (exfalso; lra);
      destruct (locate (360 - a)); cbv beta iota; try (exfalso; lra);
      (do 2 eexists; split; [reflexivity | split; [reflexivity | lra]]). }
  split; [exact Hsym|].
  split; [|split; reflexivity].
  destruct Hsym as (r & r' & -> & -> & Hr). exact Hr.
Qed.

Lemma reference_symmetry_witness :
  180 < 300 /\ 300 < 360 /\ ~ 300 == 270 /\
  same_result (get_reference_angle 300) (get_reference_angle (360 - 300)).
Proof.
  assert (Hlo : 180 < 300) by reflexivity.
  assert (Hhi : 300 < 360) by reflexivity.
  assert (Hpole : ~ 300 == 270) by (intro H; discriminate H).
  split; [exact Hlo|]. split; [exact Hhi|]. split; [exact Hpole|].
  exact (proj1 (proj2 (reference_symmetry 300 Hlo Hhi Hpole))).
Defined.

(** ** Results depend on the value of the angle alone *)

(** The rationals have many ways of writing one number, as Python has
    [90] and [90.0].  The helpers do not tell them apart. *)
Lemma helpers_respect_value (a b : Q) :
  a == b ->
  get_quadrant a = get_quadrant b /\
  same_result (get_reference_angle a) (get_reference_angle b).
Proof.
  intro Hsame. split.
  - rewrite (get_quadrant_at a), (get_quadrant_at b).
    destruct (locate a); destruct (locate b); cbv beta iota;
      first [ reflexivity | exfalso; lra ].
  - rewrite (get_reference_angle_at a), (get_reference_angle_at b).
    destruct (locate a); destruct (locate b); cbv beta iota;
      unfold same_result; first [ exact I | lra ].
Qed.

(** ** Outside the domain *)

(** C9.  For a negative angle and for an angle above 360 every test of both
    helpers fails, and both return [None]. *)
Theorem out_of_domain_none (a : Q) (Hout : a < 0 \/ 360 < a) :
  get_quadrant a = None /\ get_reference_angle a = None.
Proof.
  rewrite get_quadrant_at, get_reference_angle_at.
  destruct (locate a); cbv beta iota;
    first [ split; reflexivity | exfalso; lra ].
Qed.

Lemma out_of_domain_none_witness :
  ((-5) < 0 \/ 360 < (-5)) /\
  get_quadrant (-5) = None /\ get_reference_angle (-5) = None.
Proof.
  assert (Hout : (-5) < 0 \/ 360 < (-5)) by (left; reflexivity).
  split; [exact Hout | exact (out_of_domain_none (-5) Hout)].
Defined.

(** ** The two helpers agree on the axes *)

(** C10.  On the domain [get_reference_angle] returns [None] exactly when
    [get_quadrant] returns an axis label, and returns a number exactly when
    [get_quadrant] returns a quadrant label. *)
Theorem helpers_agree_on_axes (a : Q) (Hdom : in_domain a) :
  (get_reference_angle a = None <->
   exists l, is_axis_label l = true /\ get_quadrant a = Some (label_text l)) /\
  ((exists r, get_reference_angle a = Some r) <->
   exists l, is_axis_label l = false /\ get_quadrant a = Some (label_text l)).
Proof.
  rewrite get_quadrant_at, get_reference_angle_at.
  destruct (locate a); cbv beta iota;
    try (exfalso; unfold in_domain in Hdom; lra).
  all: split; split.
  all: try (intros _; eexists; split; [|reflexivity]; reflexivity).
  all: try (intros _; eexists; reflexivity).
  all: try (intros [r H]; discriminate H).
  all: try (intro H; discriminate H).
  all: try (intros (l & Hl & H); apply Some_label_inj in H; subst l;
            discriminate Hl).
Qed.

Lemma helpers_agree_on_axes_witness :
  in_domain 90 /\
  (get_reference_angle 90 = None <->
   exists l, is_axis_label l = true /\ get_quadrant 90 = Some (label_text l)).
Proof.
  assert (Hdom : in_domain 90) by (split; unfold Qle; simpl; lia).
  split; [exact Hdom | exact (proj1 (helpers_agree_on_axes 90 Hdom))].
Defined.

(** ** Further properties of the reference angle *)

(** A number returned by [get_reference_angle] is acute, whatever the
    argument was. *)
Lemma reference_result_acute (a r : Q) :
  get_reference_angle a = Some r -> 0 < r /\ r < 90.
Proof.
  rewrite get_reference_angle_at.
  destruct (locate a); cbv beta iota; intro Hr; try discriminate Hr;
    injection Hr as <-; split; lra.
Qed.

(** On a whole number the helper computes in whole numbers. *)
Lemma reference_result_integer (z : Z) (r : Q) :
  get_reference_angle (inject_Z z) = Some r ->
  exists k : Z, r = inject_Z k /\ (0 < k < 90)%Z.
Proof.
  intro Hr.
  assert (Hint : forall x y : Z, inject_Z x - inject_Z y = inject_Z (x - y)).
  { intros x y. unfold inject_Z, Qminus, Qplus, Qopp; cbn [Qnum Qden].
    f_equal. lia. }
  destruct (reference_result_acute _ _ Hr) as [H0 H90].
  rewrite get_reference_angle_at in Hr.
  assert (Hk : exists k : Z, r = inject_Z k).
  { destruct (locate (inject_Z z)); cbv beta iota in Hr; try discriminate Hr;
      injection Hr as <-.
    - exists z. reflexivity.
    - exists (180 - z)%Z. exact (Hint 180%Z z).
    - exists (z - 180)%Z. exact (Hint z 180%Z).
    - exists (360 - z)%Z. exact (Hint 360%Z z). }
  destruct Hk as [k ->]. exists k. split; [reflexivity|].
  unfold Qlt, inject_Z in H0, H90; cbn [Qnum Qden] in H0, H90. lia.
Qed.

(** X1.  A reference angle is its own reference angle: whenever
    [get_reference_angle] returns a number, that number lies strictly
    between 0 and 90 and the helper maps it to itself. *)
Theorem reference_fixed_point (a r : Q)
    (Hr : get_reference_angle a = Some r) :
  0 < r /\ r < 90 /\ get_reference_angle r = Some r.
Proof.
  destruct (reference_result_acute a r Hr) as [H0 H90].
  split; [exact H0|]. split; [exact H90|].
  rewrite get_reference_angle_at.
  destruct (locate r); cbv beta iota; first [ reflexivity | exfalso; lra ].
Qed.

Lemma reference_fixed_point_witness :
  get_reference_angle 250 = Some (250 - 180) /\
  get_reference_angle (250 - 180) = Some (250 - 180).
Proof.
  assert (Hr : get_reference_angle 250 = Some (250 - 180)) by reflexivity.
  split; [exact Hr|].
  exact (proj2 (proj2 (reference_fixed_point 250 (250 - 180) Hr))).
Defined.

(** X2.  The reference angle is the distance to the x-axis: a number
    returned by [get_reference_angle] equals the least of [a], [|a - 180|]
    and [360 - a]. *)
Theorem reference_is_distance_to_x_axis (a r : Q)
    (Hr : get_reference_angle a = Some r) :
  r == to_x_axis a.
Proof.
  unfold to_x_axis.
  rewrite get_reference_angle_at in Hr.
  destruct (locate a); cbv beta iota in Hr; try discriminate Hr;
    injection Hr as <-;
    destruct (Q.min_spec (Qabs (a - 180)) (360 - a)) as [[Hm ->]|[Hm ->]];
    revert Hm; apply Qabs_case; intros Ha Hm;
    match goal with
    | |- _ == Qmin ?x ?y =>
        destruct (Q.min_spec x y) as [[Hn ->]|[Hn ->]]
    end;
    lra.
Qed.

Lemma reference_is_distance_to_x_axis_witness :
  get_reference_angle 315 = Some (360 - 315) /\ 360 - 315 == to_x_axis 315.
Proof.
  assert (Hr : get_reference_angle 315 = Some (360 - 315)) by reflexivity.
  split; [exact Hr|].
  exact (reference_is_distance_to_x_axis 315 (360 - 315) Hr).
Defined.

(** Sums and differences of whole numbers, read in the rationals. *)
Lemma inject_Z_sub (x y : Z) : inject_Z (x - y) == inject_Z x - inject_Z y.
Proof.
  unfold Qeq, Qminus, Qplus, Qopp, inject_Z; cbn [Qnum Qden]. lia.
Qed.

Lemma inject_Z_add (x y : Z) : inject_Z (x + y) == inject_Z x + inject_Z y.
Proof.
  unfold Qeq, Qplus, inject_Z; cbn [Qnum Qden]. lia.
Qed.

(** X3.  For a whole-number angle of the upper half circle, the reference
    angle does not change under the reflection in the y-axis ([180 - z]) nor
    under the half turn ([z + 180]); on the axes all three calls return
    [None]. *)
Theorem reference_reflection_and_half_turn (z : Z)
    (Hlo : (0 <= z)%Z) (Hhi : (z <= 180)%Z) :
  same_result (get_reference_angle (inject_Z z))
              (get_reference_angle (inject_Z (180 - z))) /\
  same_result (get_reference_angle (inject_Z z))
              (get_reference_angle (inject_Z (z + 180))).
Proof.
  assert (H0 : 0 <= inject_Z z)
    by (change 0 with (inject_Z 0); rewrite <- Zle_Qle; exact Hlo).
  assert (H180 : inject_Z z <= 180)
    by (change 180 with (inject_Z 180); rewrite <- Zle_Qle; exact Hhi).
  pose proof (inject_Z_sub 180 z) as Esub.
  pose proof (inject_Z_add z 180) as Eadd.
  change (inject_Z 180) with 180 in Esub, Eadd.
  split.
  - rewrite (get_reference_angle_at (inject_Z z)),
      (get_reference_angle_at (inject_Z (180 - z))).
    destruct (locate (inject_Z z)); cbv beta iota; try (exfalso; lra);
      destruct (locate (inject_Z (180 - z))); cbv beta iota;
      try (exfalso; lra);
      unfold same_result; first [ exact I | lra ].
  - rewrite (get_reference_angle_at (inject_Z z)),
      (get_reference_angle_at (inject_Z (z + 180))).
    destruct (locate (inject_Z z)); cbv beta iota; try (exfalso; lra);
      destruct (locate (inject_Z (z + 180))); cbv beta iota;
      try (exfalso; lra);
      unfold same_result; first [ exact I | lra ].
Qed.

Lemma reference_reflection_and_half_turn_witness :
  (0 <= 130)%Z /\ (130 <= 180)%Z /\
  same_result (get_reference_angle (inject_Z 130))
              (get_reference_angle (inject_Z (180 - 130))) /\
  same_result (get_reference_angle (inject_Z 130))
              (get_reference_angle (inject_Z (130 + 180))).
Proof.
  assert (Hlo : (0 <= 130)%Z) by lia.
  assert (Hhi : (130 <= 180)%Z) by lia.
  split; [exact Hlo|]. split; [exact Hhi|].
  exact (reference_reflection_and_half_turn 130 Hlo Hhi).
Defined.

(** X4.  For a whole-number angle, as the slider supplies, the reference
    angle is a whole number too. *)
Theorem reference_of_integer (z : Z) (r : Q)
    (Hr : get_reference_angle (inject_Z z) = Some r) :
  exists k : Z, r = inject_Z k /\ (0 < k < 90)%Z.
Proof. exact (reference_result_integer z r Hr). Qed.

Lemma reference_of_integer_witness :
  get_reference_angle (inject_Z 200) = Some (inject_Z 200 - 180) /\
  exists k : Z, inject_Z 200 - 180 = inject_Z k /\ (0 < k < 90)%Z.
Proof.
  assert (Hr : get_reference_angle (inject_Z 200) = Some (inject_Z 200 - 180))
    by reflexivity.
  split; [exact Hr|].
  exact (reference_of_integer 200 (inject_Z 200 - 180) Hr).
Defined.

(** ** Further properties of the quadrant *)

(** X5.  Turning a whole-number angle between 0 and 270 by a quarter turn
    moves its label one step round the circle: axis to next axis, quadrant
    to next quadrant, and the negative y-axis to the positive x-axis at
    360. *)
Theorem quadrant_quarter_turn (z : Z) (l : QuadrantLabel)
    (Hlo : (0 <= z)%Z) (Hhi : (z <= 270)%Z)
    (Hl : get_quadrant (inject_Z z) = Some (label_text l)) :
  get_quadrant (inject_Z (z + 90)) = Some (label_text (quarter_turn l)).
Proof.
  assert (H0 : 0 <= inject_Z z)
    by (change 0 with (inject_Z 0); rewrite <- Zle_Qle; exact Hlo).
  assert (H270 : inject_Z z <= 270)
    by (change 270 with (inject_Z 270); rewrite <- Zle_Qle; exact Hhi).
  pose proof (inject_Z_add z 90) as Eadd.
  change (inject_Z 90) with 90 in Eadd.
  rewrite get_quadrant_at in Hl. rewrite get_quadrant_at.
  destruct (locate (inject_Z z)); cbv beta iota in Hl; try (exfalso; lra);
    apply Some_label_inj in Hl; subst l; cbn [quarter_turn];
    destruct (locate (inject_Z (z + 90))); cbv beta iota;
    first [ reflexivity | exfalso; lra ].
Qed.

Lemma quadrant_quarter_turn_witness :
  (0 <= 270)%Z /\ (270 <= 270)%Z /\
  get_quadrant (inject_Z 270) = Some (label_text NegativeYAxis) /\
  get_quadrant (inject_Z (270 + 90)) = Some (label_text PositiveXAxis).
Proof.
  assert (Hlo : (0 <= 270)%Z) by lia.
  assert (Hhi : (270 <= 270)%Z) by lia.
  assert (Hl : get_quadrant (inject_Z 270) = Some (label_text NegativeYAxis))
    by reflexivity.
  split; [exact Hlo|]. split; [exact Hhi|]. split; [exact Hl|].
  exact (quadrant_quarter_turn 270 NegativeYAxis Hlo Hhi Hl).
Defined.

(** X6.  Whenever [get_quadrant] labels a whole-number angle [z], it labels
    [360 - z] with the mirror image of that label in the x-axis: the x-axis
    labels stay, the y-axis labels swap, quadrants I and IV swap, II and III
    swap. *)
Theorem quadrant_mirror (z : Z) (l : QuadrantLabel)
    (Hl : get_quadrant (inject_Z z) = Some (label_text l)) :
  get_quadrant (inject_Z (360 - z)) = Some (label_text (mirror_x l)).
Proof.
  pose proof (inject_Z_sub 360 z) as Esub.
  change (inject_Z 360) with 360 in Esub.
  rewrite get_quadrant_at in Hl. rewrite get_quadrant_at.
  destruct (locate (inject_Z z)); cbv beta iota in Hl; try discriminate Hl;
    apply Some_label_inj in Hl; subst l; cbn [mirror_x];
    destruct (locate (inject_Z (360 - z))); cbv beta iota;
    first [ reflexivity | exfalso; lra ].
Qed.

Lemma quadrant_mirror_witness :
  get_quadrant (inject_Z 100) = Some (label_text QuadrantII) /\
  get_quadrant (inject_Z (360 - 100)) = Some (label_text QuadrantIII).
Proof.
  assert (Hl : get_quadrant (inject_Z 100) = Some (label_text QuadrantII))
    by reflexivity.
  split; [exact Hl | exact (quadrant_mirror 100 QuadrantII Hl)].
Defined.

(** X7.  The two helpers together lose nothing but the difference between 0
    and 360: from the label and the reference angle of an angle the angle is
    recovered, except that 360 is recovered as 0. *)
Theorem angle_recovered (a : Q) (l : QuadrantLabel)
    (Hl : get_quadrant a = Some (label_text l)) :
  exists b, angle_of l (get_reference_angle a) = Some b /\
            (a == b \/ (a == 360 /\ b == 0)).
Proof.
  rewrite get_quadrant_at in Hl. rewrite get_reference_angle_at.
  destruct (locate a); cbv beta iota in Hl |- *; try discriminate Hl;
    apply Some_label_inj in Hl; subst l; cbn [angle_of];
    eexists; (split; [reflexivity|]);
    first [ left; lra | right; split; lra ].
Qed.

Lemma angle_recovered_witness :
  get_quadrant 225 = Some (label_text QuadrantIII) /\
  exists b, angle_of QuadrantIII (get_reference_angle 225) = Some b /\
            (225 == b \/ (225 == 360 /\ b == 0)).
Proof.
  assert (Hl : get_quadrant 225 = Some (label_text QuadrantIII))
    by reflexivity.
  split; [exact Hl | exact (angle_recovered 225 QuadrantIII Hl)].
Defined.

(** ** The figure *)

Lemma nth_error_last_of (A : Type) (xs : list A) (n : nat) (d : A) :
  length xs = S n -> nth_error xs n = Some (last xs d).
Proof.
  intro Hlen.
  assert (Hne : xs <> []) by (intro E; subst xs; discriminate Hlen).
  rewrite (app_removelast_last d Hne) at 1.
  assert (Hn : length (removelast xs) = n).
  { rewrite (app_removelast_last d Hne) in Hlen.
    rewrite length_app in Hlen. cbn [length] in Hlen. lia. }
  rewrite nth_error_app2 by lia.
  rewrite Hn. replace (n - n)%nat with 0%nat by lia. reflexivity.
Qed.

(** X8.  The loop over the key angles leaves the layout and the shapes
    alone and adds, in the order of the list, one marker and one label per
    key angle: the marker at the point of the circle for that angle, carrying
    the angle as its data, the label showing the angle in degrees at 1.15
    times the marker's coordinates. *)
Theorem key_angle_loop (m : Libm) (ops : FloatOps m)
    (ks : list Z) (fig : Plotly.Figure (float m)) :
  let fig' := fold_left (add_key_angle m ops) ks fig in
  Plotly.layout fig' = Plotly.layout fig /\
  Plotly.shapes fig' = Plotly.shapes fig /\
  exists markers labels,
    Plotly.data fig' = Plotly.data fig ++ markers /\
    Plotly.annotations fig' = Plotly.annotations fig ++ labels /\
    Forall2
      (fun k tr =>
         Plotly.customdata tr = Some [k] /\
         Plotly.x tr = [cos m (radians m (inject_Z k))] /\
         Plotly.y tr = [sin m (radians m (inject_Z k))])
      ks markers /\
    Forall2
      (fun k an =>
         Plotly.text an = (str k ++ "°")%string /\
         Plotly.ax an =
           fmul ops (cos m (radians m (inject_Z k))) (of_number ops (115 # 100)) /\
         Plotly.ay an =
           fmul ops (sin m (radians m (inject_Z k))) (of_number ops (115 # 100)))
      ks labels.
Proof.
  revert fig. induction ks as [|k ks IH]; intro fig; cbn [fold_left].
  - split; [reflexivity|]. split; [reflexivity|].
    exists [], []. rewrite !app_nil_r.
    repeat split; constructor.
  - destruct (IH (add_key_angle m ops fig k))
      as (Hlay & Hsh & markers & labels & Hdata & Hann & Hm & Hl).
    split; [rewrite Hlay; reflexivity|].
    split; [rewrite Hsh; reflexivity|].
    eexists (_ :: markers), (_ :: labels).
    split; [rewrite Hdata; cbn; rewrite <- app_assoc; reflexivity|].
    split; [rewrite Hann; cbn; rewrite <- app_assoc; reflexivity|].
    split; constructor; try assumption; repeat split; reflexivity.
Qed.

(** The figure before the loop, and what follows it. *)
Lemma figure_unfolded (m : Libm) (ops : FloatOps m) (np : Numpy m) :
  exists base,
    length (Plotly.shapes base) = 5%nat /\
    Plotly.data base = [] /\ Plotly.annotations base = [] /\
    forall sel,
      create_unit_circle_figure m ops np sel =
      Some (let fig := fold_left (add_key_angle m ops) key_angles base in
            match sel with
            | Some a => add_selected_angle m np fig a
            | None => fig
            end).
Proof.
  unfold create_unit_circle_figure.
  change (getitem quadrant_colors "I")
    with (Some "rgba(173, 216, 230, 0.3)"%string).
  change (getitem quadrant_colors "II")
    with (Some "rgba(144, 238, 144, 0.3)"%string).
  change (getitem quadrant_colors "III")
    with (Some "rgba(255, 255, 224, 0.4)"%string).
  change (getitem quadrant_colors "IV")
    with (Some "rgba(255, 182, 193, 0.3)"%string).
  cbv beta iota zeta.
  eexists.
  split; [|split; [|split]].
  4: intro sel; reflexivity.
  all: reflexivity.
Qed.

Lemma loop_keeps (m : Libm) (ops : FloatOps m)
    (ks : list Z) (fig : Plotly.Figure (float m)) :
  Plotly.layout (fold_left (add_key_angle m ops) ks fig) = Plotly.layout fig /\
  Plotly.shapes (fold_left (add_key_angle m ops) ks fig) = Plotly.shapes fig.
Proof.
  revert fig. induction ks as [|k ks IH]; intro fig; cbn [fold_left].
  - split; reflexivity.
  - destruct (IH (add_key_angle m ops fig k)) as [-> ->]. split; reflexivity.
Qed.

Lemma loop_customdata (m : Libm) (ops : FloatOps m)
    (ks : list Z) (fig : Plotly.Figure (float m)) :
  map Plotly.customdata (Plotly.data (fold_left (add_key_angle m ops) ks fig))
  = map Plotly.customdata (Plotly.data fig) ++ map (fun k => Some [k]) ks.
Proof.
  revert fig. induction ks as [|k ks IH]; intro fig; cbn [fold_left map].
  - rewrite app_nil_r. reflexivity.
  - rewrite IH. cbn [add_key_angle Plotly.add_annotation Plotly.add_trace
                     Plotly.data].
    rewrite map_app, <- app_assoc. reflexivity.
Qed.

Lemma loop_text (m : Libm) (ops : FloatOps m)
    (ks : list Z) (fig : Plotly.Figure (float m)) :
  map Plotly.text (Plotly.annotations (fold_left (add_key_angle m ops) ks fig))
  = map Plotly.text (Plotly.annotations fig)
      ++ map (fun k => (str k ++ "°")%string) ks.
Proof.
  revert fig. induction ks as [|k ks IH]; intro fig; cbn [fold_left map].
  - rewrite app_nil_r. reflexivity.
  - rewrite IH. cbn [add_key_angle Plotly.add_annotation Plotly.add_trace
                     Plotly.annotations].
    rewrite map_app, <- app_assoc. reflexivity.
Qed.

Lemma selection_adds (m : Libm) (np : Numpy m)
    (fig : Plotly.Figure (float m)) (a : Q) :
  Plotly.layout (add_selected_angle m np fig a) = Plotly.layout fig /\
  Plotly.annotations (add_selected_angle m np fig a) = Plotly.annotations fig /\
  (exists radius,
     Plotly.shapes (add_selected_angle m np fig a)
     = Plotly.shapes fig ++ [radius]) /\
  (exists marker arc,
     Plotly.data (add_selected_angle m np fig a)
     = Plotly.data fig ++ [marker; arc]).
Proof.
  unfold add_selected_angle;
    cbn [Plotly.add_trace Plotly.add_shape Plotly.data Plotly.shapes
         Plotly.layout Plotly.annotations].
  split; [reflexivity|]. split; [reflexivity|].
  split; [eexists; reflexivity|].
  eexists; eexists. rewrite <- app_assoc. reflexivity.
Qed.

(** X9.  [create_unit_circle_figure] never fails on a missing colour.
    Without a selection the figure has five shapes, sixteen markers carrying
    the key angles in order, and sixteen labels; a selection leaves all of
    that as it is and adds one shape and two traces after it. *)
Theorem figure_static_part (m : Libm) (ops : FloatOps m) (np : Numpy m)
    (a : Q) :
  exists fig0 fig,
    create_unit_circle_figure m ops np None = Some fig0 /\
    create_unit_circle_figure m ops np (Some a) = Some fig /\
    length (Plotly.shapes fig0) = 5%nat /\
    map Plotly.customdata (Plotly.data fig0)
      = map (fun k => Some [k]) key_angles /\
    map Plotly.text (Plotly.annotations fig0)
      = map (fun k => (str k ++ "°")%string) key_angles /\
    Plotly.layout fig = Plotly.layout fig0 /\
    Plotly.annotations fig = Plotly.annotations fig0 /\
    (exists radius, Plotly.shapes fig = Plotly.shapes fig0 ++ [radius]) /\
    (exists marker arc, Plotly.data fig = Plotly.data fig0 ++ [marker; arc]).
Proof.
  destruct (figure_unfolded m ops np) as (base & Hsh & Hdata & Hann & Hfig).
  pose proof (Hfig None) as H0. pose proof (Hfig (Some a)) as Ha.
  cbv zeta in H0, Ha.
  set (fig0 := fold_left (add_key_angle m ops) key_angles base) in *.
  exists fig0, (add_selected_angle m np fig0 a).
  split; [exact H0|]. split; [exact Ha|].
  split; [unfold fig0; rewrite (proj2 (loop_keeps m ops _ base)); exact Hsh|].
  split; [unfold fig0; rewrite loop_customdata, Hdata; reflexivity|].
  split; [unfold fig0; rewrite loop_text, Hann; reflexivity|].
  exact (selection_adds m np fig0 a).
Qed.

(** X10.  For a selected angle the red cross stands at the cosine and sine
    that the panel shows, the dashed radius runs from the origin to the
    cross, and the arc has fifty points whose last one is the cross. *)
Theorem selected_angle_drawing (m : Libm) (ops : FloatOps m) (np : Numpy m)
    (a : Q) :
  exists fig traces shapes marker arc,
    create_unit_circle_figure m ops np (Some a) = Some fig /\
    Plotly.data fig = traces ++ [marker; arc] /\
    Plotly.shapes fig
      = shapes ++ [Plotly.shape_line 0 0
                     (cosine (evaluate m a)) (sine (evaluate m a))
                     {| Plotly.line_color := "red"; Plotly.line_width := 2;
                        Plotly.dash := Some "dash"%string |}] /\
    Plotly.x marker = [cosine (evaluate m a)] /\
    Plotly.y marker = [sine (evaluate m a)] /\
    length (Plotly.x arc) = 50%nat /\
    length (Plotly.y arc) = 50%nat /\
    nth_error (Plotly.x arc) 49 = Some (cosine (evaluate m a)) /\
    nth_error (Plotly.y arc) 49 = Some (sine (evaluate m a)).
Proof.
  destruct (figure_unfolded m ops np) as (base & _ & _ & _ & Hfig).
  pose proof (Hfig (Some a)) as Ha. cbv zeta in Ha.
  set (fig0 := fold_left (add_key_angle m ops) key_angles base) in *.
  exists (add_selected_angle m np fig0 a), (Plotly.data fig0),
    (Plotly.shapes fig0).
  eexists; eexists.
  split; [exact Ha|].
  unfold add_selected_angle, evaluate;
    cbn [Plotly.add_trace Plotly.add_shape Plotly.data Plotly.shapes
         Plotly.x Plotly.y sine cosine].
  split; [rewrite <- app_assoc; reflexivity|].
  split; [reflexivity|].
  cbn [Plotly.x Plotly.y].
  split; [reflexivity|]. split; [reflexivity|].
  assert (Hlen : length (linspace np 0 (radians m a) 50) = 50%nat)
    by apply linspace_length.
  assert (Hlast : nth_error (linspace np 0 (radians m a) 50) 49
                  = Some (radians m a)).
  { rewrite (nth_error_last_of _ _ 49 (radians m a) Hlen).
    rewrite linspace_last by lia. reflexivity. }
  split; [rewrite length_map; exact Hlen|].
  split; [rewrite length_map; exact Hlen|].
  split; apply map_nth_error; exact Hlast.
Qed.

(** Comparisons of a whole number with the thresholds, read in [Z]. *)
Lemma inject_Z_eq (z k : Z) : inject_Z z == inject_Z k -> z = k.
Proof. unfold Qeq, inject_Z; cbn [Qnum Qden]. lia. Qed.




(** ** The page *)

(** X12.  The line of the panel below the location is decided by the angle
    alone: at 0, 90, 180, 270 and 360 it is the notice that axes have no
    reference angle; at every other whole-number angle of the slider's range
    it is the reference angle, a whole number of degrees from 1 to 89. *)
Theorem panel_reference_line (m : Libm) (ops : FloatOps m) (angle : Z)
    (Hlo : (0 <= angle)%Z) (Hhi : (angle <= 360)%Z) :
  let panel := angle_properties m ops (Some angle) in
  (In angle [0; 90; 180; 270; 360]%Z /\
   nth_error panel 3
   = Some (info "Angles on the axes do not have a reference angle.")) \/
  (~ In angle [0; 90; 180; 270; 360]%Z /\
   exists k : Z,
     (0 < k < 90)%Z /\
     get_reference_angle (inject_Z angle) = Some (inject_Z k) /\
     nth_error panel 3
     = Some (metric "Reference Angle" (Some (str k ++ "°")%string))).
Proof.
  unfold angle_properties; cbn [nth_error].
  destruct (get_reference_angle (inject_Z angle)) as [r|] eqn:Hr.
  - right.
    destruct (reference_result_integer angle r Hr) as (k & -> & Hk).
    split.
    + rewrite get_reference_angle_at in Hr.
      cbn [In]. intros [E|[E|[E|[E|[E|[]]]]]]; subst angle;
        vm_compute in Hr; discriminate Hr.
    + exists k. split; [exact Hk|]. split; [reflexivity|].
      unfold int_of. rewrite Qfloor_Z. reflexivity.
  - left. split; [|reflexivity].
    rewrite get_reference_angle_at in Hr.
    assert (H0 : 0 <= inject_Z angle)
      by (change 0 with (inject_Z 0); rewrite <- Zle_Qle; exact Hlo).
    assert (H360 : inject_Z angle <= 360)
      by (change 360 with (inject_Z 360); rewrite <- Zle_Qle; exact Hhi).
    cbn [In].
    destruct (locate (inject_Z angle)); cbv beta iota in Hr;
      try discriminate Hr; try (exfalso; lra).
    + left. symmetry. apply inject_Z_eq. assumption.
    + right; left. symmetry. apply inject_Z_eq. assumption.
    + right; right; left. symmetry. apply inject_Z_eq. assumption.
    + right; right; right; left. symmetry. apply inject_Z_eq. assumption.
    + right; right; right; right; left. symmetry. apply inject_Z_eq.
      assumption.
Qed.

Lemma panel_reference_line_witness :
  (0 <= 200)%Z /\ (200 <= 360)%Z /\
  let panel := angle_properties rational_libm rational_ops (Some 200%Z) in
  (In 200%Z [0; 90; 180; 270; 360]%Z /\
   nth_error panel 3
   = Some (info "Angles on the axes do not have a reference angle.")) \/
  (~ In 200%Z [0; 90; 180; 270; 360]%Z /\
   exists k : Z,
     (0 < k < 90)%Z /\
     get_reference_angle (inject_Z 200) = Some (inject_Z k) /\
     nth_error panel 3
     = Some (metric "Reference Angle" (Some (str k ++ "°")%string))).
Proof.
  assert (Hlo : (0 <= 200)%Z) by lia.
  assert (Hhi : (200 <= 360)%Z) by lia.
  split; [exact Hlo|]. split; [exact Hhi|].
  exact (panel_reference_line rational_libm rational_ops 200 Hlo Hhi).
Defined.

Example panel_at_200 :
  firstn 5 (angle_properties rational_libm rational_ops (Some 200%Z))
  = [ header "Angle Properties";
      metric "Selected Angle (θ)" (Some "200°");
      metric "Location" (Some "Quadrant III");
      metric "Reference Angle" (Some "20°");
      subheader "Trigonometric Values" ]%string.
Proof. vm_compute. reflexivity. Qed.


